(** * Langflow components: Home Assistant state listing, callbacks, language models

    A shallow embedding of
    [components/homeassistant/ListHomeAssistantStates.py],
    [components/callbacks/callbacks.py] and
    [components/languagemodels/__init__.py].

    Python values that travel through the component are JSON values; the
    network is a function from the request that was sent to what
    [requests.get] did with it; every external call is appended to a log, so
    that statements about how many calls were made can be read off the
    result. *)

From Stdlib Require Import ZArith String Ascii List Lia.
From Stdlib Require Import Decimal DecimalString DecimalZ DecimalFacts DecimalPos.
From stdpp Require Import base gmap strings list.

Open Scope string_scope.
Open Scope list_scope.
Set Warnings "-register-all".

(** ** Python values *)

(** What [response.json()] can produce.  A [dict] keeps its insertion order,
    so it is an association list; Python never builds one with a repeated
    key ([wf_json] below).  Numbers are the integers: floating-point numbers
    are not modelled.  A [str] is the [string] of its UTF-8 bytes. *)
Inductive json : Type :=
| JNull
| JBool (b : bool)
| JInt (z : Z)
| JStr (s : string)
| JList (l : list json)
| JDict (d : list (string * json)).

Abbreviation dict := (list (string * json)).

(** [type(v).__name__] *)
Definition type_name (v : json) : string :=
  match v with
  | JNull => "NoneType"
  | JBool _ => "bool"
  | JInt _ => "int"
  | JStr _ => "str"
  | JList _ => "list"
  | JDict _ => "dict"
  end.

(** [d.get(key, default)] *)
Fixpoint dict_get (d : dict) (key : string) (default : json) : json :=
  match d with
  | [] => default
  | (k, v) :: d' => if String.eqb k key then v else dict_get d' key default
  end.

Fixpoint dict_has (d : dict) (key : string) : bool :=
  match d with
  | [] => false
  | (k, _) :: d' => String.eqb k key || dict_has d' key
  end.

(** [s.startswith(p)] *)
Definition startswith (s p : string) : bool := String.prefix p s.

(** Truth value of a [str]: only the empty string is false. *)
Definition truthy (s : string) : bool :=
  match s with
  | EmptyString => false
  | String _ _ => true
  end.

(** An f-string field [{x}] where [x] is a [str] or [None]. *)
Definition format_field (x : option string) : string :=
  match x with
  | Some s => s
  | None => "None"
  end.

(** [x or ""] *)
Definition or_empty (x : option string) : string :=
  match x with
  | Some s => s
  | None => ""
  end.

(** ** Exceptions *)

(** The two [except] clauses of [_list_states] tell
    [requests.exceptions.RequestException] (and its subclasses) from every
    other [Exception]; the payload is [str(e)]. *)
Inductive exn : Type :=
| RequestException (msg : string)
| AttributeError (msg : string)
| TypeError (msg : string)
| OtherException (msg : string).

Definition str_exn (e : exn) : string :=
  match e with
  | RequestException m | AttributeError m | TypeError m | OtherException m => m
  end.

Inductive outcome (A : Type) : Type :=
| Return (a : A)
| Raise (e : exn).
Arguments Return {A} a.
Arguments Raise {A} e.

Definition bind {A B : Type} (m : outcome A) (k : A -> outcome B) : outcome B :=
  match m with
  | Return a => k a
  | Raise e => Raise e
  end.

Notation "x <- m ;; k" := (bind m (fun x => k))
  (at level 100, m at level 99, right associativity).

(** ** The network *)

Record request : Type := mkRequest {
  req_method : string;
  req_url : string;
  req_headers : list (string * string);
  req_timeout : Z
}.

(** A [requests.Response]: [json_body] is what [response.json()] does. *)
Record response : Type := mkResponse {
  status_code : Z;
  reason : string;
  url : string;
  json_body : outcome json
}.

(** What [requests.get] does with a request: it raises or it returns. *)
Definition network : Type := request -> outcome response.

(** Computations that call out: the log of the calls made so far is threaded
    through. *)
Definition io (A : Type) : Type := list request -> outcome A * list request.

Definition io_ret {A : Type} (a : A) : io A := fun log => (Return a, log).

Definition io_bind {A B : Type} (m : io A) (k : A -> io B) : io B :=
  fun log =>
    match m log with
    | (Return a, log') => k a log'
    | (Raise e, log') => (Raise e, log')
    end.

Definition io_lift {A : Type} (o : outcome A) : io A := fun log => (o, log).

(** [try: m  except Exception as e: handler e] *)
Definition io_try {A : Type} (m : io A) (handler : exn -> io A) : io A :=
  fun log =>
    match m log with
    | (Return a, log') => (Return a, log')
    | (Raise e, log') => handler e log'
    end.

Notation "x <~ m ;; k" := (io_bind m (fun x => k))
  (at level 100, m at level 99, right associativity).

(** [requests.get(url, headers=headers, timeout=timeout)] *)
Definition requests_get (net : network) (u : string)
    (headers : list (string * string)) (timeout : Z) : io response :=
  fun log =>
    let req := mkRequest "GET" u headers timeout in
    (net req, log ++ [req]).

(** [str(n)] for an [int] *)
Definition int_repr (z : Z) : string := NilZero.string_of_int (Z.to_int z).

(** [response.raise_for_status()]: an [HTTPError] for 4xx and 5xx. *)
Definition raise_for_status (r : response) : outcome unit :=
  if ((400 <=? status_code r) && (status_code r <? 500))%Z then
    Raise (RequestException
      (int_repr (status_code r) +:+ " Client Error: " +:+ reason r +:+
       " for url: " +:+ url r))
  else if ((500 <=? status_code r) && (status_code r <? 600))%Z then
    Raise (RequestException
      (int_repr (status_code r) +:+ " Server Error: " +:+ reason r +:+
       " for url: " +:+ url r))
  else Return tt.

(** ** [json.dumps(v, indent=2, ensure_ascii=False)] *)

Definition dquote : ascii := "034"%char.
Definition backslash : ascii := "092"%char.
Definition newline : ascii := "010"%char.

Definition hex_digit (n : N) : ascii :=
  match n with
  | 0 => "0" | 1 => "1" | 2 => "2" | 3 => "3" | 4 => "4" | 5 => "5"
  | 6 => "6" | 7 => "7" | 8 => "8" | 9 => "9" | 10 => "a" | 11 => "b"
  | 12 => "c" | 13 => "d" | 14 => "e" | _ => "f"
  end%N%char.

(** [ESCAPE_DCT]: the short escapes, and [\u00xx] for the other control
    characters; with [ensure_ascii=False] everything else is copied. *)
Definition escape_char (c : ascii) : string :=
  if Ascii.eqb c dquote then String backslash (String dquote "")
  else if Ascii.eqb c backslash then String backslash (String backslash "")
  else if Ascii.eqb c "008" then "\b"
  else if Ascii.eqb c "012" then "\f"
  else if Ascii.eqb c "010" then "\n"
  else if Ascii.eqb c "013" then "\r"
  else if Ascii.eqb c "009" then "\t"
  else if (N_of_ascii c <? 32)%N then
    "\u00" +:+ String (hex_digit (N_of_ascii c / 16))
                 (String (hex_digit (N_of_ascii c mod 16)) "")
  else String c "".

Fixpoint escape (s : string) : string :=
  match s with
  | EmptyString => ""
  | String c s' => escape_char c +:+ escape s'
  end.

Definition encode_basestring (s : string) : string :=
  String dquote (escape s +:+ String dquote "").

Fixpoint spaces (n : nat) : string :=
  match n with
  | O => ""
  | S n' => String " " (spaces n')
  end.

(** ['\n' + _indent * _current_indent_level] with [_indent = ' ' * 2] *)
Definition newline_indent (level : nat) : string :=
  String newline (spaces (2 * level)).

(** [_iterencode], its chunks joined. *)
Fixpoint iterencode (level : nat) (v : json) {struct v} : string :=
  match v with
  | JNull => "null"
  | JBool true => "true"
  | JBool false => "false"
  | JInt z => int_repr z
  | JStr s => encode_basestring s
  | JList [] => "[]"
  | JList (x :: xs) =>
      "[" +:+ newline_indent (S level) +:+ iterencode (S level) x +:+
      (fix items (l : list json) : string :=
         match l with
         | [] => ""
         | y :: l' =>
             "," +:+ newline_indent (S level) +:+ iterencode (S level) y +:+
             items l'
         end) xs +:+
      newline_indent level +:+ "]"
  | JDict [] => "{}"
  | JDict ((k, x) :: xs) =>
      "{" +:+ newline_indent (S level) +:+
      encode_basestring k +:+ ": " +:+ iterencode (S level) x +:+
      (fix items (l : dict) : string :=
         match l with
         | [] => ""
         | (k', y) :: l' =>
             "," +:+ newline_indent (S level) +:+
             encode_basestring k' +:+ ": " +:+ iterencode (S level) y +:+
             items l'
         end) xs +:+
      newline_indent level +:+ "}"
  end.

Definition json_dumps (v : json) : string := iterencode 0 v.

(** ** [json.loads(text)] *)

(** The decoder of the standard library, written after [json/decoder.py]
    and [json/scanner.py].  [None] stands for a [JSONDecodeError] and for a
    text outside what is modelled here (a number with a fraction or an
    exponent, [NaN], [Infinity], a [\u] escape above 007f): whenever this
    decoder answers [Some v], [json.loads] answers [v]. *)

Definition is_ws (c : ascii) : bool :=
  Ascii.eqb c " " || Ascii.eqb c "009" || Ascii.eqb c "010" || Ascii.eqb c "013".

(** [WHITESPACE.match(s, end).end()] *)
Fixpoint skip_ws (s : string) : string :=
  match s with
  | EmptyString => s
  | String c r => if is_ws c then skip_ws r else s
  end.

Definition digit_of_char (c : ascii) : option (uint -> uint) :=
  if Ascii.eqb c "0" then Some D0
  else if Ascii.eqb c "1" then Some D1
  else if Ascii.eqb c "2" then Some D2
  else if Ascii.eqb c "3" then Some D3
  else if Ascii.eqb c "4" then Some D4
  else if Ascii.eqb c "5" then Some D5
  else if Ascii.eqb c "6" then Some D6
  else if Ascii.eqb c "7" then Some D7
  else if Ascii.eqb c "8" then Some D8
  else if Ascii.eqb c "9" then Some D9
  else None.

Definition is_digit (c : ascii) : bool :=
  match digit_of_char c with
  | Some _ => true
  | None => false
  end.

(** The longest run of digits at the head of [s]. *)
Fixpoint read_digits (s : string) : uint * string :=
  match s with
  | EmptyString => (Nil, s)
  | String c r =>
      match digit_of_char c with
      | Some d => let (ds, r') := read_digits r in (d ds, r')
      | None => (Nil, s)
      end
  end.

(** Does the fraction or the exponent of [NUMBER_RE] match at [s]? *)
Definition float_follows (s : string) : bool :=
  match s with
  | String c (String c1 r) =>
      (Ascii.eqb c "." && is_digit c1)
      || ((Ascii.eqb c "e" || Ascii.eqb c "E")
          && (is_digit c1
              || ((Ascii.eqb c1 "+" || Ascii.eqb c1 "-")
                  && match r with
                     | String c2 _ => is_digit c2
                     | EmptyString => false
                     end)))
  | _ => false
  end.

Definition finish_number (i : Decimal.int) (r : string) : option (json * string) :=
  if float_follows r then None else Some (JInt (Z.of_int i), r).

(** [NUMBER_RE.match]: an optional sign, then [0] or a run of digits that
    does not start with [0]. *)
Definition match_number (s : string) : option (json * string) :=
  let (negative, s1) :=
    match s with
    | String c r => if Ascii.eqb c "-" then (true, r) else (false, s)
    | EmptyString => (false, s)
    end in
  let sign := fun ds => if negative then Neg ds else Pos ds in
  match s1 with
  | EmptyString => None
  | String c r =>
      if Ascii.eqb c "0" then finish_number (sign (D0 Nil)) r
      else if is_digit c then
        let (ds, r') := read_digits s1 in finish_number (sign ds) r'
      else None
  end.

Definition hex_value (c : ascii) : option N :=
  let n := N_of_ascii c in
  if ((48 <=? n) && (n <=? 57))%N then Some (n - 48)%N
  else if ((97 <=? n) && (n <=? 102))%N then Some (n - 87)%N
  else if ((65 <=? n) && (n <=? 70))%N then Some (n - 55)%N
  else None.

Definition hex4 (h1 h2 h3 h4 : ascii) : option N :=
  match hex_value h1, hex_value h2, hex_value h3, hex_value h4 with
  | Some a, Some b, Some c, Some d => Some (((a * 16 + b) * 16 + c) * 16 + d)%N
  | _, _, _, _ => None
  end.

(** [BACKSLASH] *)
Definition unescape (c : ascii) : option ascii :=
  if Ascii.eqb c dquote then Some dquote
  else if Ascii.eqb c backslash then Some backslash
  else if Ascii.eqb c "/" then Some "/"%char
  else if Ascii.eqb c "b" then Some "008"%char
  else if Ascii.eqb c "f" then Some "012"%char
  else if Ascii.eqb c "n" then Some "010"%char
  else if Ascii.eqb c "r" then Some "013"%char
  else if Ascii.eqb c "t" then Some "009"%char
  else None.

(** [scanstring(s, end, strict=True)], from just after the opening quote:
    the decoded string and what follows the closing quote. *)
Fixpoint scanstring (s : string) : option (string * string) :=
  match s with
  | EmptyString => None
  | String c r =>
      if Ascii.eqb c dquote then Some (EmptyString, r)
      else if Ascii.eqb c backslash then
        match r with
        | EmptyString => None
        | String e r1 =>
            if Ascii.eqb e "u" then
              match r1 with
              | String h1 (String h2 (String h3 (String h4 r2))) =>
                  match hex4 h1 h2 h3 h4 with
                  | Some n =>
                      if (n <? 128)%N then
                        match scanstring r2 with
                        | Some (t, rest) => Some (String (ascii_of_N n) t, rest)
                        | None => None
                        end
                      else None
                  | None => None
                  end
              | _ => None
              end
            else
              match unescape e with
              | Some c' =>
                  match scanstring r1 with
                  | Some (t, rest) => Some (String c' t, rest)
                  | None => None
                  end
              | None => None
              end
        end
      else if (N_of_ascii c <? 32)%N then None
      else
        match scanstring r with
        | Some (t, rest) => Some (String c t, rest)
        | None => None
        end
  end.

(** [d[k] = v] *)
Fixpoint dict_set (d : dict) (k : string) (v : json) : dict :=
  match d with
  | [] => [(k, v)]
  | (k', v') :: d' =>
      if String.eqb k' k then (k', v) :: d' else (k', v') :: dict_set d' k v
  end.

(** [dict(pairs)] *)
Definition dict_of_pairs (pairs : list (string * json)) : dict :=
  fold_left (fun d kv => dict_set d (fst kv) (snd kv)) pairs [].

(** [s[idx:idx+len(p)] == p], and what follows. *)
Fixpoint strip_prefix (p s : string) : option string :=
  match p, s with
  | EmptyString, _ => Some s
  | String a p', String b s' => if Ascii.eqb a b then strip_prefix p' s' else None
  | String _ _, EmptyString => None
  end.

Section Decoder.
(** [scan_once], as [JSONArray] and [JSONObject] receive it. *)
Variable scan : string -> option (json * string).

(** The [while True] loop of [JSONArray], from the first value on. *)
Fixpoint array_items (fuel : nat) (s : string) : option (list json * string) :=
  match fuel with
  | O => None
  | S n =>
      match scan s with
      | None => None
      | Some (v, r) =>
          match skip_ws r with
          | EmptyString => None
          | String c r' =>
              if Ascii.eqb c "]" then Some ([v], r')
              else if Ascii.eqb c "," then
                match array_items n (skip_ws r') with
                | Some (vs, rest) => Some (v :: vs, rest)
                | None => None
                end
              else None
          end
      end
  end.

Definition JSONArray (fuel : nat) (s : string) : option (json * string) :=
  match skip_ws s with
  | EmptyString => None
  | String c r =>
      if Ascii.eqb c "]" then Some (JList [], r)
      else
        match array_items fuel (skip_ws s) with
        | Some (vs, rest) => Some (JList vs, rest)
        | None => None
        end
  end.

(** The [while True] loop of [JSONObject], from just after the opening
    quote of a key. *)
Fixpoint object_items (fuel : nat) (s : string)
    : option (list (string * json) * string) :=
  match fuel with
  | O => None
  | S n =>
      match scanstring s with
      | None => None
      | Some (key, r) =>
          match skip_ws r with
          | EmptyString => None
          | String c r1 =>
              if Ascii.eqb c ":" then
                match scan (skip_ws r1) with
                | None => None
                | Some (v, r2) =>
                    match skip_ws r2 with
                    | EmptyString => None
                    | String c2 r3 =>
                        if Ascii.eqb c2 "}" then Some ([(key, v)], r3)
                        else if Ascii.eqb c2 "," then
                          match skip_ws r3 with
                          | EmptyString => None
                          | String c3 r4 =>
                              if Ascii.eqb c3 dquote then
                                match object_items n r4 with
                                | Some (kvs, rest) => Some ((key, v) :: kvs, rest)
                                | None => None
                                end
                              else None
                          end
                        else None
                    end
                end
              else None
          end
      end
  end.

Definition JSONObject (fuel : nat) (s : string) : option (json * string) :=
  match skip_ws s with
  | EmptyString => None
  | String c r =>
      if Ascii.eqb c dquote then
        match object_items fuel r with
        | Some (pairs, rest) => Some (JDict (dict_of_pairs pairs), rest)
        | None => None
        end
      else if Ascii.eqb c "}" then Some (JDict [], r)
      else None
  end.
End Decoder.

(** [_scan_once]; [fuel] bounds the nesting and the length of a container. *)
Fixpoint scan_once (fuel : nat) (s : string) : option (json * string) :=
  match fuel with
  | O => None
  | S n =>
      match s with
      | EmptyString => None
      | String c r =>
          if Ascii.eqb c dquote then
            match scanstring r with
            | Some (t, rest) => Some (JStr t, rest)
            | None => None
            end
          else if Ascii.eqb c "{" then JSONObject (scan_once n) n r
          else if Ascii.eqb c "[" then JSONArray (scan_once n) n r
          else
            match strip_prefix "null" s, strip_prefix "true" s,
                  strip_prefix "false" s with
            | Some rest, _, _ => Some (JNull, rest)
            | _, Some rest, _ => Some (JBool true, rest)
            | _, _, Some rest => Some (JBool false, rest)
            | None, None, None => match_number s
            end
      end
  end.

(** [JSONDecoder.decode]: leading blanks, one value, trailing blanks, and
    nothing else. *)
Definition json_loads (s : string) : option json :=
  match scan_once (S (String.length s)) (skip_ws s) with
  | Some (v, rest) =>
      match skip_ws rest with
      | EmptyString => Some v
      | String _ _ => None
      end
  | None => None
  end.

(** ** The component *)

Inductive input_kind : Type := SecretStrInput | StrInput.

Record input_decl : Type := mkInput {
  in_kind : input_kind;
  in_name : string;
  in_display_name : string;
  in_info : string;
  in_required : bool
}.

(** [ListHomeAssistantStates.inputs] *)
Definition inputs : list input_decl :=
  [ mkInput SecretStrInput "ha_token" "Home Assistant Token"
      "Home Assistant Long-Lived Access Token" true;
    mkInput StrInput "base_url" "Home Assistant URL"
      "e.g., http://192.168.0.10:8123" true;
    mkInput StrInput "filter_domain" "Default Filter Domain (Optional)"
      "light, switch, sensor, etc. (Leave empty to fetch all)" false ].

(** One field of a pydantic schema: its name and its default. *)
Record schema_field : Type := mkField {
  field_name : string;
  field_default : string;
  field_description : string
}.

(** [class ToolSchema(BaseModel)] *)
Definition ToolSchema : list schema_field :=
  [ mkField "filter_domain" ""
      "Filter domain (e.g., 'light'). If empty, returns all." ].

(** The attributes of a component instance, as entered in the UI; a field
    that was not given is [None]. *)
Record ListHomeAssistantStates : Type := mkComponent {
  ha_token : option string;
  base_url : option string;
  filter_domain : option string
}.

(** Modelled from the spec: the envelope [langflow.schema.Data], whose class
    is not part of the source.  It is the ResultEnvelope of the spec, a
    payload and a text, which the component sets through the keyword
    arguments [data] and [text]. *)
Record Data : Type := mkData {
  data : dict;
  text : string
}.

(** [for st in all_states]: a list gives its items, a dict its keys, a string
    its characters; nothing else is iterable. *)
Definition iterate (v : json) : outcome (list json) :=
  match v with
  | JList l => Return l
  | JDict d => Return (map (fun kv => JStr (fst kv)) d)
  | JStr s => Return (map (fun c => JStr (String c "")) (list_ascii_of_string s))
  | _ => Raise (TypeError ("'" +:+ type_name v +:+ "' object is not iterable"))
  end.

(** [st.get("entity_id", "").startswith(prefix)] *)
Definition entity_matches (prefix : string) (st : json) : outcome bool :=
  match st with
  | JDict d =>
      match dict_get d "entity_id" (JStr "") with
      | JStr s => Return (startswith s prefix)
      | v => Raise (AttributeError
               ("'" +:+ type_name v +:+ "' object has no attribute 'startswith'"))
      end
  | _ => Raise (AttributeError
           ("'" +:+ type_name st +:+ "' object has no attribute 'get'"))
  end.

(** The list comprehension of [_list_states]: items are tested in order and
    the first exception ends it. *)
Fixpoint comprehension (prefix : string) (items : list json)
    : outcome (list json) :=
  match items with
  | [] => Return []
  | st :: rest =>
      keep <- entity_matches prefix st ;;
      tl <- comprehension prefix rest ;;
      Return (if keep then st :: tl else tl)
  end.

(** The request [_list_states] sends. *)
Definition states_request (ha_token base_url : option string) : request :=
  mkRequest "GET" (format_field base_url +:+ "/api/states")
    [ ("Authorization", "Bearer " +:+ format_field ha_token);
      ("Content-Type", "application/json") ]
    10.

(** The [try] block of [_list_states]. *)
Definition _list_states_try (net : network) (ha_token base_url : option string)
    (filter_domain : string) : io json :=
  let headers :=
    [ ("Authorization", "Bearer " +:+ format_field ha_token);
      ("Content-Type", "application/json") ] in
  let u := format_field base_url +:+ "/api/states" in
  response <~ requests_get net u headers 10 ;;
  _ <~ io_lift (raise_for_status response) ;;
  all_states <~ io_lift (json_body response) ;;
  if truthy filter_domain then
    filtered <~ io_lift (items <- iterate all_states ;;
                         comprehension (filter_domain +:+ ".") items) ;;
    io_ret (JList filtered)
  else io_ret all_states.

(** Its two [except] clauses. *)
Definition _list_states_except (e : exn) : string :=
  match e with
  | RequestException _ => "Error: Failed to fetch states. " +:+ str_exn e
  | _ => "An unexpected error occurred: " +:+ str_exn e
  end.

Definition _list_states (net : network) (ha_token base_url : option string)
    (filter_domain : string) : io json :=
  io_try (_list_states_try net ha_token base_url filter_domain)
    (fun e => io_ret (JStr (_list_states_except e))).

(** [_make_data_response].  [json.dumps] raises nothing on a value that came
    out of [response.json()], so the [except] clause is never taken; it is
    kept as the source has it. *)
Definition _make_data_response (result : json) : Data :=
  match
    match result with
    | JList _ =>
        let wrapped_result := [("result", result)] in
        rendered <- Return (json_dumps (JDict wrapped_result)) ;;
        Return (mkData wrapped_result rendered)
    | JDict d =>
        rendered <- Return (json_dumps result) ;;
        Return (mkData d rendered)
    | JStr s => Return (mkData [] s)
    | _ => Return (mkData [] "Error: Unexpected response format.")
    end
  with
  | Return d => d
  | Raise e =>
      mkData [] ("Error: Failed to process response. Details: " +:+ str_exn e)
  end.

Definition run_model (net : network) (self : ListHomeAssistantStates) : io Data :=
  let filter_domain := or_empty (filter_domain self) in
  result <~ _list_states net (ha_token self) (base_url self) filter_domain ;;
  io_ret (_make_data_response result).

Definition _list_states_for_tool (net : network) (self : ListHomeAssistantStates)
    (filter_domain : string) : io json :=
  _list_states net (ha_token self) (base_url self) filter_domain.

(** [StructuredTool.from_function(name=, description=, func=, args_schema=)] *)
Record StructuredTool : Type := mkTool {
  tool_name : string;
  tool_description : string;
  tool_func : string -> io json;
  args_schema : list schema_field
}.

Definition build_tool (net : network) (self : ListHomeAssistantStates)
    : StructuredTool :=
  mkTool "list_homeassistant_states"
    ("Retrieve states from Home Assistant. " +:+
     "You can provide filter_domain='light', 'switch', etc. to narrow results.")
    (_list_states_for_tool net self)
    ToolSchema.

Fixpoint assoc (key : string) (l : list (string * string)) : option string :=
  match l with
  | [] => None
  | (k, v) :: l' => if String.eqb k key then Some v else assoc key l'
  end.

(** Reading the agent's arguments against a schema: a field that is not
    given takes its default, a key that is no field of the schema is
    dropped. *)
Definition validate_args (schema : list schema_field)
    (args : list (string * string)) : list string :=
  map (fun f =>
         match assoc (field_name f) args with
         | Some v => v
         | None => field_default f
         end) schema.

(** The agent's call of a tool whose function takes one argument. *)
Definition tool_call (t : StructuredTool) (args : list (string * string))
    : io json :=
  tool_func t (hd "" (validate_args (args_schema t) args)).

(** ** [callbacks.py] *)

Section Callbacks.
(** The handlers are opaque references owned by the tracing service. *)
Variable BaseCallbackHandler : Type.
(** [self.get_langchain_callbacks()] *)
Variable get_langchain_callbacks : list BaseCallbackHandler.

Definition build_callbacks : list BaseCallbackHandler :=
  get_langchain_callbacks.
End Callbacks.

(** ** [languagemodels/__init__.py] *)

(** The [from .module import Name] lines, in order. *)
Definition imports : list (string * string) :=
  [ ("aiml", "AIMLModelComponent");
    ("anthropic", "AnthropicModelComponent");
    ("azure_openai", "AzureChatOpenAIComponent");
    ("baidu_qianfan_chat", "QianfanChatEndpointComponent");
    ("cohere", "CohereComponent");
    ("deepseek", "DeepSeekModelComponent");
    ("google_generative_ai", "GoogleGenerativeAIComponent");
    ("groq", "GroqModel");
    ("huggingface", "HuggingFaceEndpointsComponent");
    ("lmstudiomodel", "LMStudioModelComponent");
    ("maritalk", "MaritalkModelComponent");
    ("mistral", "MistralAIModelComponent");
    ("novita", "NovitaModelComponent");
    ("nvidia", "NVIDIAModelComponent");
    ("ollama", "ChatOllamaComponent");
    ("openai_chat_model", "OpenAIModelComponent");
    ("openrouter", "OpenRouterComponent");
    ("perplexity", "PerplexityComponent");
    ("sambanova", "SambaNovaComponent");
    ("swama", "SwamaModelComponent");
    ("vertexai", "ChatVertexAIComponent");
    ("watsonx", "WatsonxAIComponent");
    ("xai", "XAIModelComponent") ].

Definition __all__ : list string :=
  [ "AIMLModelComponent";
    "AnthropicModelComponent";
    "AzureChatOpenAIComponent";
    "ChatOllamaComponent";
    "ChatVertexAIComponent";
    "CohereComponent";
    "DeepSeekModelComponent";
    "GoogleGenerativeAIComponent";
    "GroqModel";
    "HuggingFaceEndpointsComponent";
    "LMStudioModelComponent";
    "MaritalkModelComponent";
    "MistralAIModelComponent";
    "NVIDIAModelComponent";
    "NovitaModelComponent";
    "OpenAIModelComponent";
    "OpenRouterComponent";
    "PerplexityComponent";
    "QianfanChatEndpointComponent";
    "SambaNovaComponent";
    "SwamaModelComponent";
    "WatsonxAIComponent";
    "XAIModelComponent" ].

(** ** Connector registry *)

Inductive registry_error : Type :=
| DuplicateIdentifier (identifier : string)
| UnknownConnector (identifier : string).

(** Modelled from the spec: the connector specification of the data model
    (an identifier, a display name and the declared configuration fields);
    the source has no such record. *)
Record ConnectorSpec : Type := mkSpec {
  identifier : string;
  display_name : string;
  fields : list input_decl
}.

Section Registry.
(** What a factory builds is not looked into. *)
Variable factory : Type.

(** Modelled from the spec: [register(spec, factory)], which is missing from
    the source (the package only lists its connectors in [__all__]).  It
    fails with [DuplicateIdentifier] if the identifier already exists. *)
Definition register (spec : ConnectorSpec) (f : factory)
    (reg : gmap string (ConnectorSpec * factory))
    : registry_error + gmap string (ConnectorSpec * factory) :=
  match reg !! identifier spec with
  | Some _ => inl (DuplicateIdentifier (identifier spec))
  | None => inr (<[identifier spec := (spec, f)]> reg)
  end.

(** Modelled from the spec: [resolve(identifier) -> factory], which is
    missing from the source.  It fails with [UnknownConnector] if absent. *)
Definition resolve (id : string) (reg : gmap string (ConnectorSpec * factory))
    : registry_error + factory :=
  match reg !! id with
  | Some (_, f) => inr f
  | None => inl (UnknownConnector id)
  end.

(** Modelled from the spec: the registration phase at start-up, one
    [register] after the other; the first failure ends it. *)
Fixpoint register_all (entries : list (ConnectorSpec * factory))
    (reg : gmap string (ConnectorSpec * factory))
    : registry_error + gmap string (ConnectorSpec * factory) :=
  match entries with
  | [] => inr reg
  | (spec, f) :: rest =>
      match register spec f reg with
      | inl e => inl e
      | inr reg' => register_all rest reg'
      end
  end.
End Registry.
Arguments register {factory} spec f reg.
Arguments resolve {factory} id reg.
Arguments register_all {factory} entries reg.

(** ** Vocabulary of the statements *)

(** The call went through: [requests.get] returned, the status raised
    nothing, and the body parsed to [body]. *)
Definition upstream_succeeds (net : network) (req : request) (body : json)
    : Prop :=
  exists r, net req = Return r /\ raise_for_status r = Return tt /\
            json_body r = Return body.

(** The value under ["entity_id"], when the item is an object that has the
    key with a string under it. *)
Definition entity_id (st : json) : option string :=
  match st with
  | JDict d =>
      if dict_has d "entity_id" then
        match dict_get d "entity_id" (JStr "") with
        | JStr s => Some s
        | _ => None
        end
      else None
  | _ => None
  end.

(** An object whose ["entity_id"], if it has one, is a string: the items on
    which the test of the comprehension raises nothing. *)
Definition state_like (st : json) : bool :=
  match st with
  | JDict d =>
      match dict_get d "entity_id" (JStr "") with
      | JStr _ => true
      | _ => false
      end
  | _ => false
  end.

(** The test of the comprehension on such an item. *)
Definition has_prefix (prefix : string) (st : json) : bool :=
  match st with
  | JDict d =>
      match dict_get d "entity_id" (JStr "") with
      | JStr s => startswith s prefix
      | _ => false
      end
  | _ => false
  end.

(** What the [try] block comes to, the log apart. *)
Definition try_outcome (net : network) (ha_token base_url : option string)
    (filter_domain : string) : outcome json :=
  fst (_list_states_try net ha_token base_url filter_domain []).


(** *** Sample inputs *)

Definition light_kitchen : json :=
  JDict [("entity_id", JStr "light.kitchen"); ("state", JStr "on")].

Definition sensor_temp : json :=
  JDict [("entity_id", JStr "sensor.temp"); ("state", JStr "21")].

(** A server that answers every request with the given status and body. *)
Definition serve (status : Z) (why : string) (body : json) : network :=
  fun req => Return (mkResponse status why (req_url req) (Return body)).

(** A call that raises. *)
Definition failing (e : exn) : network := fun _ => Raise e.

Definition home : ListHomeAssistantStates :=
  mkComponent (Some "token") (Some "http://192.168.0.10:8123") (Some "light").

Definition home_unfiltered : ListHomeAssistantStates :=
  mkComponent (Some "token") (Some "http://192.168.0.10:8123") None.

Definition home_without_token : ListHomeAssistantStates :=
  mkComponent None (Some "http://192.168.0.10:8123") None.

(** The listed connectors as registry entries; the module a name is
    imported from stands for its factory. *)
Definition connectors : list (ConnectorSpec * string) :=
  map (fun mn => (mkSpec (snd mn) (snd mn) [], fst mn)) imports.

(** The registry after the start-up registration of [connectors]. *)
Definition language_models : gmap string (ConnectorSpec * string) :=
  match register_all connectors ∅ with
  | inr reg => reg
  | inl _ => ∅
  end.

(** *** Vocabulary of the decoder proofs *)






(** A payload with nested containers, escapes and a negative number. *)
Definition sample_payload : json :=
  JList [ JDict [ ("entity_id", JStr "light.kitchen");
                  ("state", JStr "on");
                  ("attributes",
                   JDict [ ("brightness", JInt 255);
                           ("friendly_name",
                            JStr (String dquote "Kitchen\" +:+
                                  String dquote (String newline "")));
                           ("offset", JInt (-3));
                           ("effects", JList [JNull; JBool true; JBool false]);
                           ("empty", JDict []) ]) ];
          JList [];
          JInt 0 ].

(** * Properties *)

(** ** The call and its log *)

Lemma try_log net t u d log :
  _list_states_try net t u d log =
  (try_outcome net t u d, log ++ [states_request t u]).
Proof.
  unfold try_outcome, _list_states_try, io_bind, requests_get, io_lift, io_ret.
  fold (states_request t u). simpl.
  destruct (net (states_request t u)) as [r|e]; [|reflexivity].
  destruct (raise_for_status r); [|reflexivity].
  destruct (json_body r) as [body|e]; [|reflexivity].
  destruct (truthy d); [|reflexivity].
  destruct (items <- iterate body ;; comprehension (d +:+ ".") items);
    reflexivity.
Qed.

Lemma list_states_eq net t u d log :
  _list_states net t u d log =
  (Return match try_outcome net t u d with
          | Return v => v
          | Raise e => JStr (_list_states_except e)
          end,
   log ++ [states_request t u]).
Proof.
  unfold _list_states, io_try. rewrite try_log.
  destruct (try_outcome net t u d); reflexivity.
Qed.

Lemma run_model_eq net self log :
  run_model net self log =
  (Return (_make_data_response
     match try_outcome net (ha_token self) (base_url self)
             (or_empty (filter_domain self)) with
     | Return v => v
     | Raise e => JStr (_list_states_except e)
     end),
   log ++ [states_request (ha_token self) (base_url self)]).
Proof.
  unfold run_model, io_bind. rewrite list_states_eq. reflexivity.
Qed.

Lemma try_outcome_success net t u d body :
  upstream_succeeds net (states_request t u) body ->
  try_outcome net t u d =
  if truthy d then
    match items <- iterate body ;; comprehension (d +:+ ".") items with
    | Return filtered => Return (JList filtered)
    | Raise e => Raise e
    end
  else Return body.
Proof.
  intros (r & Hnet & Hstatus & Hbody).
  unfold try_outcome, _list_states_try, io_bind, requests_get, io_lift, io_ret.
  fold (states_request t u). simpl.
  rewrite Hnet, Hstatus, Hbody.
  destruct (truthy d); [|reflexivity].
  destruct (items <- iterate body ;; comprehension (d +:+ ".") items);
    reflexivity.
Qed.

Lemma try_outcome_raise net t u d e :
  net (states_request t u) = Raise e -> try_outcome net t u d = Raise e.
Proof.
  intros Hnet.
  unfold try_outcome, _list_states_try, io_bind, requests_get, io_lift, io_ret.
  fold (states_request t u). simpl. rewrite Hnet. reflexivity.
Qed.

Lemma try_outcome_status net t u d r :
  net (states_request t u) = Return r ->
  (400 <= status_code r < 600)%Z ->
  exists m, try_outcome net t u d = Raise (RequestException m).
Proof.
  intros Hnet Hs.
  unfold try_outcome, _list_states_try, io_bind, requests_get, io_lift, io_ret.
  fold (states_request t u). simpl. rewrite Hnet.
  unfold raise_for_status.
  destruct (Z.leb_spec 400 (status_code r)); [|lia].
  destruct (Z.ltb_spec (status_code r) 500); simpl; [eauto|].
  destruct (Z.leb_spec 500 (status_code r)); [|lia].
  destruct (Z.ltb_spec (status_code r) 600); simpl; [eauto|lia].
Qed.

(** ** The comprehension *)

Lemma comprehension_filter p l r :
  comprehension p l = Return r -> r = List.filter (has_prefix p) l.
Proof.
  revert r. induction l as [|st l IH]; simpl; intros r H.
  - congruence.
  - unfold entity_matches, has_prefix in *.
    destruct st as [| | | |?|d]; simpl in H; try discriminate.
    destruct (dict_get d "entity_id" (JStr "")); simpl in H; try discriminate.
    destruct (comprehension p l) as [tl|]; simpl in H; [|discriminate].
    rewrite <- (IH tl eq_refl). destruct (startswith s p); congruence.
Qed.

Lemma comprehension_total p l :
  Forall (fun st => state_like st = true) l ->
  comprehension p l = Return (List.filter (has_prefix p) l).
Proof.
  induction 1 as [|st l Hst _ IH]; simpl; [reflexivity|].
  rewrite IH. unfold entity_matches, has_prefix, state_like in *.
  destruct st as [| | | |?|d]; try discriminate.
  destruct (dict_get d "entity_id" (JStr "")); try discriminate.
  simpl. destruct (startswith s p); reflexivity.
Qed.

Lemma filter_is_sublist {A} (f : A -> bool) (l : list A) :
  sublist (List.filter f l) l.
Proof.
  induction l as [|x l IH]; simpl; [constructor|].
  destruct (f x); constructor; assumption.
Qed.

Lemma dict_get_absent d k v : dict_has d k = false -> dict_get d k v = v.
Proof.
  induction d as [|[k' x] d IH]; simpl; [reflexivity|].
  destruct (String.eqb k' k); simpl; [discriminate|assumption].
Qed.

Lemma append_dot_nonempty d : d +:+ "." <> "".
Proof. destruct d; discriminate. Qed.

Lemma has_prefix_entity_id p st :
  p <> "" -> has_prefix p st = true ->
  exists s, entity_id st = Some s /\ startswith s p = true.
Proof.
  intros Hp H. unfold has_prefix, entity_id in *.
  destruct st as [| | | |?|d]; try discriminate.
  destruct (dict_has d "entity_id") eqn:Hhas.
  - destruct (dict_get d "entity_id" (JStr "")); try discriminate. eauto.
  - rewrite dict_get_absent in H by assumption.
    destruct p; [congruence|discriminate].
Qed.

Lemma has_prefix_needs_key p d :
  p <> "" -> dict_has d "entity_id" = false -> has_prefix p (JDict d) = false.
Proof.
  intros Hp H. unfold has_prefix. rewrite dict_get_absent by assumption.
  destruct p; [congruence|reflexivity].
Qed.

Lemma truthy_nonempty d : d <> "" -> truthy d = true.
Proof. destruct d; [congruence|reflexivity]. Qed.

(** ** Filtering *)

(** C1 (as amended): for a non-empty [filter_domain = d], when the call
    succeeds with a JSON list whose items are objects with a string (or no)
    ["entity_id"], the narrowed tool call returns a list, [run_model] wraps
    the same list under ["result"], every item of it has an ["entity_id"]
    that starts with [d] followed by ["."], and every item of it occurs in
    the upstream list. *)
Theorem filter_returns_matching_states net self d l log :
  d <> "" ->
  upstream_succeeds net (states_request (ha_token self) (base_url self)) (JList l) ->
  Forall (fun st => state_like st = true) l ->
  exists r,
    _list_states_for_tool net self d log =
      (Return (JList r), log ++ [states_request (ha_token self) (base_url self)]) /\
    (filter_domain self = Some d ->
     exists t, run_model net self log =
       (Return (mkData [("result", JList r)] t),
        log ++ [states_request (ha_token self) (base_url self)])) /\
    (forall st, In st r ->
       exists s, entity_id st = Some s /\ startswith s (d +:+ ".") = true) /\
    (forall st, In st r -> In st l).
Proof.
  intros Hd Hup Hwf.
  exists (List.filter (has_prefix (d +:+ ".")) l).
  assert (Hout : try_outcome net (ha_token self) (base_url self) d =
                 Return (JList (List.filter (has_prefix (d +:+ ".")) l))).
  { rewrite (try_outcome_success _ _ _ _ _ Hup), (truthy_nonempty _ Hd).
    simpl. rewrite (comprehension_total _ _ Hwf). reflexivity. }
  repeat split.
  - unfold _list_states_for_tool. rewrite list_states_eq, Hout. reflexivity.
  - intros Hfd. rewrite run_model_eq, Hfd. simpl. rewrite Hout.
    eexists. reflexivity.
  - intros st Hin. apply filter_In in Hin as [_ Hin].
    apply has_prefix_entity_id; [apply append_dot_nonempty|assumption].
  - intros st Hin. apply filter_In in Hin as [Hin _]. assumption.
Qed.

Lemma filter_returns_matching_states_witness :
  exists r,
    _list_states_for_tool (serve 200 "OK" (JList [light_kitchen; sensor_temp]))
      home "light" [] =
      (Return (JList r), [] ++ [states_request (ha_token home) (base_url home)]) /\
    (filter_domain home = Some "light" ->
     exists t, run_model (serve 200 "OK" (JList [light_kitchen; sensor_temp]))
                 home [] =
       (Return (mkData [("result", JList r)] t),
        [] ++ [states_request (ha_token home) (base_url home)])) /\
    (forall st, In st r ->
       exists s, entity_id st = Some s /\ startswith s ("light" +:+ ".") = true) /\
    (forall st, In st r -> In st [light_kitchen; sensor_temp]).
Proof.
  apply (filter_returns_matching_states
           (serve 200 "OK" (JList [light_kitchen; sensor_temp])) home "light"
           [light_kitchen; sensor_temp] []).
  - discriminate.
  - eexists. repeat split; reflexivity.
  - repeat constructor.
Defined.

(** C1 (as stated) fails: a JSON list may hold an item that is no object, and
    then the test of the comprehension raises, the call returns a text and
    [run_model] an envelope with an empty payload. *)
Lemma filter_of_a_non_object_item_is_a_text :
  upstream_succeeds (serve 200 "OK" (JList [light_kitchen; JNull]))
    (states_request (ha_token home) (base_url home))
    (JList [light_kitchen; JNull]) /\
  _list_states_for_tool (serve 200 "OK" (JList [light_kitchen; JNull]))
    home "light" [] =
    (Return (JStr "An unexpected error occurred: 'NoneType' object has no attribute 'get'"),
     [states_request (ha_token home) (base_url home)]) /\
  run_model (serve 200 "OK" (JList [light_kitchen; JNull])) home [] =
    (Return (mkData [] "An unexpected error occurred: 'NoneType' object has no attribute 'get'"),
     [states_request (ha_token home) (base_url home)]).
Proof.
  split; [|split; reflexivity].
  eexists. repeat split; reflexivity.
Qed.

(** The end-to-end example of the spec. *)
Example light_filter_example :
  fst (run_model (serve 200 "OK" (JList [light_kitchen; sensor_temp])) home []) =
  Return (_make_data_response (JList [light_kitchen])) /\
  data (_make_data_response (JList [light_kitchen])) =
  [("result", JList [light_kitchen])].
Proof. split; reflexivity. Qed.

(** C2: with [filter_domain] empty or absent, when the call succeeds with a
    JSON list, [run_model] returns a payload whose ["result"] is the whole
    upstream list, in upstream order, and the narrowed tool call returns that
    list. *)
Theorem no_filter_returns_everything net self l log :
  filter_domain self = None \/ filter_domain self = Some "" ->
  upstream_succeeds net (states_request (ha_token self) (base_url self)) (JList l) ->
  run_model net self log =
    (Return (mkData [("result", JList l)] (json_dumps (JDict [("result", JList l)]))),
     log ++ [states_request (ha_token self) (base_url self)]) /\
  _list_states_for_tool net self "" log =
    (Return (JList l), log ++ [states_request (ha_token self) (base_url self)]) /\
  tool_call (build_tool net self) [] log =
    (Return (JList l), log ++ [states_request (ha_token self) (base_url self)]).
Proof.
  intros Hfd Hup.
  assert (Hout : try_outcome net (ha_token self) (base_url self) "" =
                 Return (JList l)).
  { rewrite (try_outcome_success _ _ _ _ _ Hup). reflexivity. }
  assert (Hor : or_empty (filter_domain self) = "").
  { destruct Hfd as [-> | ->]; reflexivity. }
  repeat split.
  - rewrite run_model_eq, Hor, Hout. reflexivity.
  - unfold _list_states_for_tool. rewrite list_states_eq, Hout. reflexivity.
  - unfold tool_call, build_tool, _list_states_for_tool. simpl.
    rewrite list_states_eq, Hout. reflexivity.
Qed.

Lemma no_filter_returns_everything_witness :
  run_model (serve 200 "OK" (JList [light_kitchen; sensor_temp])) home_unfiltered [] =
    (Return (mkData [("result", JList [light_kitchen; sensor_temp])]
               (json_dumps (JDict [("result", JList [light_kitchen; sensor_temp])]))),
     [] ++ [states_request (ha_token home_unfiltered) (base_url home_unfiltered)]) /\
  _list_states_for_tool (serve 200 "OK" (JList [light_kitchen; sensor_temp]))
    home_unfiltered "" [] =
    (Return (JList [light_kitchen; sensor_temp]),
     [] ++ [states_request (ha_token home_unfiltered) (base_url home_unfiltered)]) /\
  tool_call (build_tool (serve 200 "OK" (JList [light_kitchen; sensor_temp]))
               home_unfiltered) [] [] =
    (Return (JList [light_kitchen; sensor_temp]),
     [] ++ [states_request (ha_token home_unfiltered) (base_url home_unfiltered)]).
Proof.
  apply (no_filter_returns_everything
           (serve 200 "OK" (JList [light_kitchen; sensor_temp])) home_unfiltered
           [light_kitchen; sensor_temp] []).
  - left. reflexivity.
  - eexists. repeat split; reflexivity.
Defined.

(** C10: under a non-empty [filter_domain], whenever the call returns a list,
    that list is an order-preserving subsequence of the upstream list and
    holds no object that lacks the ["entity_id"] key; and it does return a
    list when the upstream items are objects with a string (or no)
    ["entity_id"]. *)
Theorem filter_drops_items_without_entity_id net t u d l log :
  d <> "" ->
  upstream_succeeds net (states_request t u) (JList l) ->
  (forall r, fst (_list_states net t u d log) = Return (JList r) ->
     sublist r l /\
     forall dct, dict_has dct "entity_id" = false -> ~ In (JDict dct) r) /\
  (Forall (fun st => state_like st = true) l ->
   exists r, fst (_list_states net t u d log) = Return (JList r)).
Proof.
  intros Hd Hup. rewrite list_states_eq. simpl.
  rewrite (try_outcome_success _ _ _ _ _ Hup), (truthy_nonempty _ Hd). simpl.
  split.
  - intros r Hr.
    destruct (comprehension (d +:+ ".") l) as [f|e] eqn:Hc; [|discriminate].
    apply comprehension_filter in Hc. injection Hr as <-. subst f. split.
    + apply filter_is_sublist.
    + intros dct Hno Hin. apply filter_In in Hin as [_ Hin].
      rewrite has_prefix_needs_key in Hin;
        [discriminate|apply append_dot_nonempty|assumption].
  - intros Hwf. rewrite (comprehension_total _ _ Hwf). eauto.
Qed.

Lemma filter_drops_items_without_entity_id_witness :
  (forall r,
     fst (_list_states
            (serve 200 "OK" (JList [JDict [("state", JStr "on")]; light_kitchen]))
            (Some "token") (Some "http://192.168.0.10:8123") "light" []) =
     Return (JList r) ->
     sublist r [JDict [("state", JStr "on")]; light_kitchen] /\
     forall dct, dict_has dct "entity_id" = false -> ~ In (JDict dct) r) /\
  (Forall (fun st => state_like st = true)
     [JDict [("state", JStr "on")]; light_kitchen] ->
   exists r,
     fst (_list_states
            (serve 200 "OK" (JList [JDict [("state", JStr "on")]; light_kitchen]))
            (Some "token") (Some "http://192.168.0.10:8123") "light" []) =
     Return (JList r)).
Proof.
  apply (filter_drops_items_without_entity_id
           (serve 200 "OK" (JList [JDict [("state", JStr "on")]; light_kitchen]))
           (Some "token") (Some "http://192.168.0.10:8123") "light"
           [JDict [("state", JStr "on")]; light_kitchen] []).
  - discriminate.
  - eexists. repeat split; reflexivity.
Defined.

Example item_without_entity_id_is_dropped :
  fst (_list_states
         (serve 200 "OK" (JList [JDict [("state", JStr "on")]; light_kitchen]))
         (Some "token") (Some "http://192.168.0.10:8123") "light" []) =
  Return (JList [light_kitchen]).
Proof. reflexivity. Qed.

(** ** Failures *)

(** C3 (as amended): when [requests.get] raises a [RequestException] (a
    connection error, a timeout), or the response has a status from 400 to
    599, [run_model] returns an envelope with the empty payload and a text
    that begins with ["Error:"]; it raises nothing. *)
Theorem request_failure_gives_error_envelope net self log :
  (exists m, net (states_request (ha_token self) (base_url self)) =
             Raise (RequestException m)) \/
  (exists r, net (states_request (ha_token self) (base_url self)) = Return r /\
             (400 <= status_code r < 600)%Z) ->
  exists m,
    run_model net self log =
      (Return (mkData [] ("Error: Failed to fetch states. " +:+ m)),
       log ++ [states_request (ha_token self) (base_url self)]) /\
    startswith ("Error: Failed to fetch states. " +:+ m) "Error:" = true.
Proof.
  intros H.
  assert (exists m, try_outcome net (ha_token self) (base_url self)
                      (or_empty (filter_domain self)) =
                    Raise (RequestException m)) as [m Hm].
  { destruct H as [[m Hm] | (r & Hr & Hs)].
    - exists m. apply try_outcome_raise. assumption.
    - eapply try_outcome_status; eassumption. }
  exists m. split; [|reflexivity].
  rewrite run_model_eq, Hm. reflexivity.
Qed.

Lemma request_failure_gives_error_envelope_witness :
  exists m,
    run_model (serve 500 "Internal Server Error" JNull) home [] =
      (Return (mkData [] ("Error: Failed to fetch states. " +:+ m)),
       [] ++ [states_request (ha_token home) (base_url home)]) /\
    startswith ("Error: Failed to fetch states. " +:+ m) "Error:" = true.
Proof.
  apply (request_failure_gives_error_envelope
           (serve 500 "Internal Server Error" JNull) home []).
  right. eexists. split; [reflexivity|]. simpl. lia.
Defined.

Example connection_refused_example :
  run_model (failing (RequestException "Connection refused")) home [] =
  (Return (mkData [] "Error: Failed to fetch states. Connection refused"),
   [states_request (ha_token home) (base_url home)]).
Proof. reflexivity. Qed.

(** C3 (as stated) fails: [raise_for_status] raises for 4xx and 5xx only, so
    a 300 response with a JSON list in its body is taken as a success. *)
Lemma status_300_is_taken_as_success :
  run_model (serve 300 "Multiple Choices" (JList [light_kitchen])) home [] =
    (Return (_make_data_response (JList [light_kitchen])),
     [states_request (ha_token home) (base_url home)]) /\
  data (_make_data_response (JList [light_kitchen])) =
    [("result", JList [light_kitchen])] /\
  startswith (text (_make_data_response (JList [light_kitchen]))) "Error:" = false.
Proof. repeat split; reflexivity. Qed.

(** C4 (as amended): [run_model] always returns an envelope and never
    raises; when the [try] block of [_list_states] raises [e], the payload is
    empty and the text is ["Error: Failed to fetch states. "] followed by
    [str(e)] for a [RequestException], and
    ["An unexpected error occurred: "] followed by [str(e)] for any other
    exception. *)
Theorem every_failure_ends_in_an_envelope net self log :
  exists d,
    run_model net self log =
      (Return d, log ++ [states_request (ha_token self) (base_url self)]) /\
    forall e,
      try_outcome net (ha_token self) (base_url self)
        (or_empty (filter_domain self)) = Raise e ->
      data d = [] /\
      text d = match e with
               | RequestException m => "Error: Failed to fetch states. " +:+ m
               | _ => "An unexpected error occurred: " +:+ str_exn e
               end.
Proof.
  eexists. split; [apply run_model_eq|].
  intros e ->. split; [reflexivity|]. destruct e; reflexivity.
Qed.

(** C4 (as stated) fails: an exception that is no [RequestException], raised
    by [requests.get] or later in the [try] block (here by iterating over a
    body that is a number), gives a text that does not begin with
    ["Error:"]. *)
Lemma unexpected_exception_text_has_no_error_prefix :
  run_model (failing (OtherException "boom")) home [] =
    (Return (mkData [] "An unexpected error occurred: boom"),
     [states_request (ha_token home) (base_url home)]) /\
  startswith "An unexpected error occurred: boom" "Error:" = false /\
  run_model (serve 200 "OK" (JInt 3)) home [] =
    (Return (mkData [] "An unexpected error occurred: 'int' object is not iterable"),
     [states_request (ha_token home) (base_url home)]) /\
  startswith "An unexpected error occurred: 'int' object is not iterable"
    "Error:" = false.
Proof. repeat split; reflexivity. Qed.

(** ** The request *)

Lemma one_request net self filter log :
  snd (run_model net self log) =
    log ++ [states_request (ha_token self) (base_url self)] /\
  snd (_list_states_for_tool net self filter log) =
    log ++ [states_request (ha_token self) (base_url self)].
Proof.
  rewrite run_model_eq. unfold _list_states_for_tool.
  rewrite list_states_eq. split; reflexivity.
Qed.

(** C6: an invocation, through [run_model] or through the tool, makes exactly
    one request, whatever comes of it: a GET of [base_url] followed by
    ["/api/states"], with the headers [Authorization: Bearer {ha_token}] and
    [Content-Type: application/json] and the timeout 10. *)
Theorem exactly_one_get_request net token base filter agent_filter log :
  snd (run_model net (mkComponent (Some token) (Some base) filter) log) =
    log ++ [mkRequest "GET" (base +:+ "/api/states")
              [("Authorization", "Bearer " +:+ token);
               ("Content-Type", "application/json")] 10] /\
  snd (_list_states_for_tool net (mkComponent (Some token) (Some base) filter)
         agent_filter log) =
    log ++ [mkRequest "GET" (base +:+ "/api/states")
              [("Authorization", "Bearer " +:+ token);
               ("Content-Type", "application/json")] 10].
Proof.
  apply (one_request net (mkComponent (Some token) (Some base) filter)).
Qed.

(** ** The tool *)

(** C7: the tool's function, called with [f], is [_list_states] applied to
    the component's own [ha_token] and [base_url] and to [f]; the schema the
    agent sees has the one field [filter_domain], and whatever else the
    agent passes is dropped. *)
Theorem tool_is_list_states_with_bound_secrets net self f args :
  _list_states_for_tool net self f =
    _list_states net (ha_token self) (base_url self) f /\
  tool_func (build_tool net self) f =
    _list_states net (ha_token self) (base_url self) f /\
  map field_name (args_schema (build_tool net self)) = ["filter_domain"] /\
  tool_call (build_tool net self) args =
    _list_states net (ha_token self) (base_url self)
      (match assoc "filter_domain" args with
       | Some v => v
       | None => ""
       end).
Proof. repeat split; reflexivity. Qed.

Example agent_cannot_set_the_token :
  tool_call (build_tool (serve 200 "OK" (JList [])) home)
    [("ha_token", "stolen"); ("base_url", "http://evil"); ("filter_domain", "switch")] =
  _list_states (serve 200 "OK" (JList [])) (Some "token")
    (Some "http://192.168.0.10:8123") "switch".
Proof. reflexivity. Qed.

(** ** Required fields *)

(** C9 (as amended): [ha_token] and [base_url] are declared required and
    [filter_domain] is not, but [run_model] checks nothing: when a required
    field is absent it still makes the request, with [None] formatted into
    it, and returns an envelope. *)
Theorem required_fields_are_declared_not_checked net self log :
  ha_token self = None \/ base_url self = None ->
  map (fun i => (in_name i, in_required i)) inputs =
    [("ha_token", true); ("base_url", true); ("filter_domain", false)] /\
  exists d,
    run_model net self log =
      (Return d, log ++ [states_request (ha_token self) (base_url self)]).
Proof.
  intros _. split; [reflexivity|].
  eexists. apply run_model_eq.
Qed.

Lemma required_fields_are_declared_not_checked_witness :
  map (fun i => (in_name i, in_required i)) inputs =
    [("ha_token", true); ("base_url", true); ("filter_domain", false)] /\
  exists d,
    run_model (serve 200 "OK" (JList [light_kitchen])) home_without_token [] =
      (Return d, [] ++ [states_request (ha_token home_without_token)
                          (base_url home_without_token)]).
Proof.
  apply (required_fields_are_declared_not_checked
           (serve 200 "OK" (JList [light_kitchen])) home_without_token []).
  left. reflexivity.
Defined.

(** C9 (as stated) fails: without a token the request is made all the same,
    with the header [Authorization: Bearer None], and its result comes
    back. *)
Lemma absent_token_still_calls_out :
  ha_token home_without_token = None /\
  run_model (serve 200 "OK" (JList [light_kitchen])) home_without_token [] =
    (Return (_make_data_response (JList [light_kitchen])),
     [mkRequest "GET" "http://192.168.0.10:8123/api/states"
        [("Authorization", "Bearer None");
         ("Content-Type", "application/json")] 10]).
Proof. split; reflexivity. Qed.

(** ** The registry *)

Lemma register_taken {factory : Type} (spec : ConnectorSpec) (f : factory)
    (reg : gmap string (ConnectorSpec * factory)) :
  is_Some (reg !! identifier spec) ->
  register spec f reg = inl (DuplicateIdentifier (identifier spec)).
Proof. intros [x Hx]. unfold register. rewrite Hx. reflexivity. Qed.

Lemma register_free {factory : Type} (spec : ConnectorSpec) (f : factory)
    (reg : gmap string (ConnectorSpec * factory)) :
  reg !! identifier spec = None ->
  register spec f reg = inr (<[identifier spec := (spec, f)]> reg).
Proof. intros Hx. unfold register. rewrite Hx. reflexivity. Qed.

Lemma resolve_absent {factory : Type} (id : string)
    (reg : gmap string (ConnectorSpec * factory)) :
  reg !! id = None -> resolve id reg = inl (UnknownConnector id).
Proof. intros Hx. unfold resolve. rewrite Hx. reflexivity. Qed.

Lemma register_all_lookup {factory : Type}
    (entries : list (ConnectorSpec * factory))
    (reg reg' : gmap string (ConnectorSpec * factory)) (id : string) :
  register_all entries reg = inr reg' ->
  (is_Some (reg' !! id) <->
   is_Some (reg !! id) \/ In id (map (fun e => identifier (fst e)) entries)).
Proof.
  revert reg. induction entries as [|[spec f] entries IH]; simpl; intros reg H.
  - injection H as <-. tauto.
  - unfold register in H.
    destruct (reg !! identifier spec) eqn:Hfree; [discriminate|].
    rewrite (IH _ H), lookup_insert_is_Some.
    destruct (decide (identifier spec = id)) as [->|Hne]; [tauto|].
    split; [intros [[?|[_ ?]]|?]; tauto|].
    intros [?|[?|?]]; tauto.
Qed.

(** C8: after a registration phase that went through, registering a factory
    under an identifier that one of the registered connectors has fails with
    [DuplicateIdentifier], and resolving an identifier that was never
    registered fails with [UnknownConnector]. *)
Theorem registry_contract {factory : Type}
    (entries : list (ConnectorSpec * factory))
    (reg : gmap string (ConnectorSpec * factory)) :
  register_all entries ∅ = inr reg ->
  (forall spec f,
     In (identifier spec) (map (fun e => identifier (fst e)) entries) ->
     register spec f reg = inl (DuplicateIdentifier (identifier spec))) /\
  (forall id,
     ~ In id (map (fun e => identifier (fst e)) entries) ->
     resolve id reg = inl (UnknownConnector id)).
Proof.
  intros H. split.
  - intros spec f Hin. apply register_taken.
    apply (register_all_lookup _ _ _ _ H). right. assumption.
  - intros id Hout. apply resolve_absent.
    apply eq_None_not_Some. intros Hsome.
    apply (register_all_lookup _ _ _ _ H) in Hsome as [Hsome|Hin].
    + rewrite lookup_empty in Hsome. destruct Hsome. discriminate.
    + contradiction.
Qed.

Lemma exported_names_are_distinct : NoDup __all__.
Proof. apply (bool_decide_unpack _). vm_compute. exact I. Qed.

Lemma exported_names_are_the_imported_ones : map snd imports ≡ₚ __all__.
Proof. apply (bool_decide_unpack _). vm_compute. exact I. Qed.

Lemma register_all_distinct {factory : Type}
    (entries : list (ConnectorSpec * factory))
    (reg : gmap string (ConnectorSpec * factory)) :
  NoDup (map (fun e => identifier (fst e)) entries) ->
  (forall e, In e entries -> reg !! identifier (fst e) = None) ->
  exists reg', register_all entries reg = inr reg'.
Proof.
  revert reg. induction entries as [|[spec f] entries IH]; simpl; intros reg Hnd Hfree.
  - eauto.
  - inversion Hnd as [|? ? Hnotin Hnd']; subst.
    rewrite register_free by (apply (Hfree (spec, f)); left; reflexivity).
    apply IH; [assumption|].
    intros e He. rewrite lookup_insert_ne.
    + apply Hfree. right. assumption.
    + intros Heq. apply Hnotin. rewrite Heq.
      apply list_elem_of_In, (in_map (fun e => identifier (fst e))).
      assumption.
Qed.

Lemma language_models_registered :
  register_all connectors ∅ = inr language_models.
Proof.
  destruct (register_all_distinct connectors ∅) as [reg Hreg].
  - replace (map (fun e => identifier (fst e)) connectors) with (map snd imports).
    + rewrite exported_names_are_the_imported_ones.
      apply exported_names_are_distinct.
    + unfold connectors. rewrite map_map. reflexivity.
  - intros. apply lookup_empty.
  - unfold language_models. rewrite Hreg. reflexivity.
Qed.

Lemma registry_contract_witness :
  (forall spec (f : string),
     In (identifier spec) (map (fun e => identifier (fst e)) connectors) ->
     register spec f language_models = inl (DuplicateIdentifier (identifier spec))) /\
  (forall id,
     ~ In id (map (fun e => identifier (fst e)) connectors) ->
     resolve id language_models = inl (UnknownConnector id)).
Proof.
  apply (registry_contract connectors language_models).
  exact language_models_registered.
Defined.

Example second_groq_is_a_duplicate :
  register (mkSpec "GroqModel" "Groq" []) "groq2" language_models =
  inl (DuplicateIdentifier "GroqModel").
Proof.
  apply register_taken. apply (bool_decide_unpack _). vm_compute. exact I.
Qed.

(** * Encoding and decoding *)

#[local] Arguments String.append !_ _ / : simpl nomatch.

(** ** Strings *)

Lemma append_assoc (a b c : string) : (a +:+ b) +:+ c = a +:+ (b +:+ c).
Proof. induction a as [|x a IH]; simpl; [reflexivity|]. rewrite IH. reflexivity. Qed.



(** ** Blanks *)



(** ** Numbers *)





(** ** Strings of the encoder *)














#[local] Opaque newline_indent.

Section Containers.
Variable scan : string -> option (json * string).

End Containers.


Section Objects.
Variable scan : string -> option (json * string).

End Objects.

(** ** [dict(pairs)] of pairs with distinct keys *)




(** ** Encoding, then decoding *)






#[local] Transparent newline_indent.

(** ** Enough fuel *)




(** ** The envelope *)



Example sample_payload_text_parses :
  json_loads (text (_make_data_response sample_payload)) =
  Some (JDict [("result", sample_payload)]).
Proof. vm_compute. reflexivity. Qed.

(** * Further properties of the component *)

(** ** What the filter keeps *)

Lemma prefix_append p s :
  String.prefix p s = true <-> exists rest, s = p +:+ rest.
Proof.
  revert s. induction p as [|a p IH]; intros s.
  - split; [intros _; exists s; reflexivity|]. destruct s; reflexivity.
  - destruct s as [|b s]; simpl.
    + split; [discriminate|]. intros [rest H]. discriminate.
    + destruct (ascii_dec a b) as [->|Hne].
      * rewrite IH. split; intros [rest H]; exists rest; congruence.
      * split; [discriminate|]. intros [rest H]. congruence.
Qed.

Lemma has_prefix_spec d st :
  has_prefix (d +:+ ".") st = true <->
  exists rest, entity_id st = Some (d +:+ "." +:+ rest).
Proof.
  split.
  - intros H.
    destruct (has_prefix_entity_id _ _ (append_dot_nonempty d) H) as (s & Hs & Hp).
    apply prefix_append in Hp as [rest ->]. exists rest.
    rewrite <- append_assoc. exact Hs.
  - intros [rest H]. unfold entity_id, has_prefix in *.
    destruct st as [| | | |?|dct]; try discriminate.
    destruct (dict_has dct "entity_id"); [|discriminate].
    destruct (dict_get dct "entity_id" (JStr "")); try discriminate.
    injection H as ->. apply prefix_append. exists rest.
    symmetry. exact (append_assoc d "." rest).
Qed.

Lemma has_prefix_state_like p st : has_prefix p st = true -> state_like st = true.
Proof.
  unfold has_prefix, state_like. destruct st as [| | | |?|d]; try discriminate.
  destruct (dict_get d "entity_id" (JStr "")); try discriminate. reflexivity.
Qed.

Lemma filtered_call net t u d l log :
  d <> "" ->
  upstream_succeeds net (states_request t u) (JList l) ->
  fst (_list_states net t u d log) =
  Return match comprehension (d +:+ ".") l with
         | Return r => JList r
         | Raise e => JStr (_list_states_except e)
         end.
Proof.
  intros Hd Hup. rewrite list_states_eq. simpl.
  rewrite (try_outcome_success _ _ _ _ _ Hup), (truthy_nonempty _ Hd). simpl.
  destruct (comprehension (d +:+ ".") l); reflexivity.
Qed.

(** X1: under a non-empty [filter_domain = d], on an upstream list of
    objects with a string (or no) ["entity_id"], the call returns the
    upstream items that pass the test, in upstream order and as often as
    they occur, and an item passes exactly when it has an ["entity_id"] of
    the form [d], ["."], anything: no matching item is lost. *)
Theorem filter_keeps_exactly_the_matching_states net t u d l log :
  d <> "" ->
  upstream_succeeds net (states_request t u) (JList l) ->
  Forall (fun st => state_like st = true) l ->
  fst (_list_states net t u d log) =
    Return (JList (List.filter (has_prefix (d +:+ ".")) l)) /\
  forall st,
    In st (List.filter (has_prefix (d +:+ ".")) l) <->
    In st l /\ exists rest, entity_id st = Some (d +:+ "." +:+ rest).
Proof.
  intros Hd Hup Hwf. split.
  - rewrite (filtered_call _ _ _ _ _ _ Hd Hup), (comprehension_total _ _ Hwf).
    reflexivity.
  - intros st. rewrite filter_In, has_prefix_spec. reflexivity.
Qed.

Lemma filter_keeps_exactly_the_matching_states_witness :
  fst (_list_states
         (serve 200 "OK"
            (JList [JDict [("entity_id", JStr "lighting.hall")];
                    light_kitchen; sensor_temp; light_kitchen]))
         (Some "token") (Some "http://192.168.0.10:8123") "light" []) =
    Return (JList (List.filter (has_prefix ("light" +:+ "."))
                     [JDict [("entity_id", JStr "lighting.hall")];
                      light_kitchen; sensor_temp; light_kitchen])) /\
  forall st,
    In st (List.filter (has_prefix ("light" +:+ "."))
             [JDict [("entity_id", JStr "lighting.hall")];
              light_kitchen; sensor_temp; light_kitchen]) <->
    In st [JDict [("entity_id", JStr "lighting.hall")];
           light_kitchen; sensor_temp; light_kitchen] /\
    exists rest, entity_id st = Some ("light" +:+ "." +:+ rest).
Proof.
  apply (filter_keeps_exactly_the_matching_states
           (serve 200 "OK"
              (JList [JDict [("entity_id", JStr "lighting.hall")];
                      light_kitchen; sensor_temp; light_kitchen]))
           (Some "token") (Some "http://192.168.0.10:8123") "light"
           [JDict [("entity_id", JStr "lighting.hall")];
            light_kitchen; sensor_temp; light_kitchen] []).
  - discriminate.
  - eexists. repeat split; reflexivity.
  - repeat constructor.
Defined.

Example similar_domain_is_not_kept :
  fst (_list_states
         (serve 200 "OK"
            (JList [JDict [("entity_id", JStr "lighting.hall")];
                    light_kitchen; sensor_temp; light_kitchen]))
         (Some "token") (Some "http://192.168.0.10:8123") "light" []) =
  Return (JList [light_kitchen; light_kitchen]).
Proof. reflexivity. Qed.

(** ** One bad item *)

Lemma comprehension_raises p l :
  ~ Forall (fun st => state_like st = true) l ->
  exists m, comprehension p l = Raise (AttributeError m).
Proof.
  induction l as [|st l IH]; intros Hbad.
  - destruct Hbad. constructor.
  - simpl. destruct (state_like st) eqn:Hst.
    + destruct IH as [m Hm].
      { intros Hl. apply Hbad. constructor; assumption. }
      unfold entity_matches, state_like in *.
      destruct st as [| | | |?|d]; try discriminate.
      destruct (dict_get d "entity_id" (JStr "")); try discriminate.
      simpl. rewrite Hm. eauto.
    + unfold entity_matches, state_like in *.
      destruct st as [| | | |?|d]; simpl; eauto.
      destruct (dict_get d "entity_id" (JStr "")); simpl; eauto.
      discriminate.
Qed.

Lemma comprehension_returns p l r :
  comprehension p l = Return r -> Forall (fun st => state_like st = true) l.
Proof.
  revert r. induction l as [|st l IH]; simpl; intros r H; [constructor|].
  unfold entity_matches in H.
  destruct st as [| | | |?|d]; try discriminate.
  destruct (dict_get d "entity_id" (JStr "")) eqn:Hget; try discriminate.
  simpl in H. destruct (comprehension p l) as [tl|]; [|discriminate].
  constructor; [|exact (IH tl eq_refl)].
  unfold state_like. rewrite Hget. reflexivity.
Qed.

(** X2: under a non-empty [filter_domain], on an upstream list, the call
    returns a list exactly when every item is an object with a string (or
    no) ["entity_id"]; one item that is not makes it return the text
    ["An unexpected error occurred: ..."] instead, and the items that did
    match are lost with it. *)
Theorem one_bad_item_discards_the_result net t u d l log :
  d <> "" ->
  upstream_succeeds net (states_request t u) (JList l) ->
  ((exists r, fst (_list_states net t u d log) = Return (JList r)) <->
   Forall (fun st => state_like st = true) l) /\
  (~ Forall (fun st => state_like st = true) l ->
   exists m, fst (_list_states net t u d log) =
             Return (JStr ("An unexpected error occurred: " +:+ m))).
Proof.
  intros Hd Hup. rewrite (filtered_call _ _ _ _ _ _ Hd Hup).
  assert (Hbad : ~ Forall (fun st => state_like st = true) l ->
                 exists m, comprehension (d +:+ ".") l = Raise (AttributeError m))
    by apply comprehension_raises.
  split; [split|].
  - intros [r Hr].
    destruct (comprehension (d +:+ ".") l) as [r'|e] eqn:Hc; [|discriminate].
    exact (comprehension_returns _ _ _ Hc).
  - intros Hall. rewrite (comprehension_total _ _ Hall). eauto.
  - intros Hnot. destruct (Hbad Hnot) as [m ->]. exists m. reflexivity.
Qed.

Lemma one_bad_item_discards_the_result_witness :
  ((exists r,
      fst (_list_states (serve 200 "OK" (JList [light_kitchen; JBool true]))
             (Some "token") (Some "http://192.168.0.10:8123") "light" []) =
      Return (JList r)) <->
   Forall (fun st => state_like st = true) [light_kitchen; JBool true]) /\
  (~ Forall (fun st => state_like st = true) [light_kitchen; JBool true] ->
   exists m,
     fst (_list_states (serve 200 "OK" (JList [light_kitchen; JBool true]))
            (Some "token") (Some "http://192.168.0.10:8123") "light" []) =
     Return (JStr ("An unexpected error occurred: " +:+ m))).
Proof.
  apply (one_bad_item_discards_the_result
           (serve 200 "OK" (JList [light_kitchen; JBool true]))
           (Some "token") (Some "http://192.168.0.10:8123") "light"
           [light_kitchen; JBool true] []).
  - discriminate.
  - eexists. repeat split; reflexivity.
Defined.

(** ** Filtering what was filtered *)

Lemma filter_filter {A} (f : A -> bool) (l : list A) :
  List.filter f (List.filter f l) = List.filter f l.
Proof.
  induction l as [|x l IH]; simpl; [reflexivity|].
  destruct (f x) eqn:Hx; simpl; [rewrite Hx, IH|]; auto.
Qed.

(** X3: the filter is idempotent: a list that a filtered call returned,
    served again as the upstream list and filtered by the same domain, comes
    back unchanged. *)
Theorem filtering_twice_changes_nothing net t u net' t' u' d l r log log' :
  d <> "" ->
  upstream_succeeds net (states_request t u) (JList l) ->
  fst (_list_states net t u d log) = Return (JList r) ->
  upstream_succeeds net' (states_request t' u') (JList r) ->
  fst (_list_states net' t' u' d log') = Return (JList r).
Proof.
  intros Hd Hup Hr Hup'.
  rewrite (filtered_call _ _ _ _ _ _ Hd Hup) in Hr.
  rewrite (filtered_call _ _ _ _ _ _ Hd Hup').
  destruct (comprehension (d +:+ ".") l) as [r0|e] eqn:Hc; [|discriminate].
  injection Hr as ->. apply comprehension_filter in Hc. subst r.
  rewrite comprehension_total.
  - rewrite filter_filter. reflexivity.
  - apply Forall_forall. intros st Hst.
    apply list_elem_of_In, filter_In in Hst as [_ Hst].
    exact (has_prefix_state_like _ _ Hst).
Qed.

Lemma filtering_twice_changes_nothing_witness :
  fst (_list_states (serve 200 "OK" (JList [light_kitchen]))
         None None "light" []) =
  Return (JList [light_kitchen]).
Proof.
  apply (filtering_twice_changes_nothing
           (serve 200 "OK" (JList [light_kitchen; sensor_temp]))
           (Some "token") (Some "http://192.168.0.10:8123")
           (serve 200 "OK" (JList [light_kitchen])) None None
           "light" [light_kitchen; sensor_temp] [light_kitchen] [] []).
  - discriminate.
  - eexists. repeat split; reflexivity.
  - reflexivity.
  - eexists. repeat split; reflexivity.
Defined.

(** ** A body that is no list *)

(** X4: under a non-empty [filter_domain], a body that is no list is
    iterated all the same: an empty object and an empty string give the
    empty list, any other object or string gives the keys or the characters,
    which have no [get], and a number, a boolean or [null] cannot be
    iterated; the text names the type. *)
Theorem filter_of_a_body_that_is_no_list net t u d body log :
  d <> "" ->
  upstream_succeeds net (states_request t u) body ->
  (forall l, body <> JList l) ->
  fst (_list_states net t u d log) =
  Return match body with
         | JDict [] | JStr EmptyString => JList []
         | JDict _ | JStr _ =>
             JStr "An unexpected error occurred: 'str' object has no attribute 'get'"
         | _ =>
             JStr ("An unexpected error occurred: '" +:+ type_name body +:+
                   "' object is not iterable")
         end.
Proof.
  intros Hd Hup Hbody. rewrite list_states_eq. simpl.
  rewrite (try_outcome_success _ _ _ _ _ Hup), (truthy_nonempty _ Hd).
  destruct body as [|b|z|s|l|dct]; try reflexivity.
  - destruct s; reflexivity.
  - destruct (Hbody l eq_refl).
  - destruct dct as [|[k v] dct]; reflexivity.
Qed.

Lemma filter_of_a_body_that_is_no_list_witness :
  fst (_list_states
         (serve 200 "OK" (JDict [("message", JStr "API running.")]))
         (Some "token") (Some "http://192.168.0.10:8123") "light" []) =
  Return match JDict [("message", JStr "API running.")] with
         | JDict [] | JStr EmptyString => JList []
         | JDict _ | JStr _ =>
             JStr "An unexpected error occurred: 'str' object has no attribute 'get'"
         | _ =>
             JStr ("An unexpected error occurred: '" +:+
                   type_name (JDict [("message", JStr "API running.")]) +:+
                   "' object is not iterable")
         end.
Proof.
  apply (filter_of_a_body_that_is_no_list
           (serve 200 "OK" (JDict [("message", JStr "API running.")]))
           (Some "token") (Some "http://192.168.0.10:8123") "light"
           (JDict [("message", JStr "API running.")]) []).
  - discriminate.
  - eexists. repeat split; reflexivity.
  - discriminate.
Defined.

(** ** A body that is no list, without a filter *)

(** X5: without a filter the body is handed on as it is, and its kind
    decides the envelope: an object is the payload itself (it is not
    wrapped), a string becomes the text with an empty payload, as an error
    message would, and [null], a boolean or a number gives the text
    ["Error: Unexpected response format."]. *)
Theorem unfiltered_body_decides_the_envelope net self body log :
  filter_domain self = None \/ filter_domain self = Some "" ->
  upstream_succeeds net (states_request (ha_token self) (base_url self)) body ->
  exists env,
    run_model net self log =
      (Return env, log ++ [states_request (ha_token self) (base_url self)]) /\
    (forall d, body = JDict d -> env = mkData d (json_dumps body)) /\
    (forall s, body = JStr s -> env = mkData [] s) /\
    (body = JNull \/ (exists b, body = JBool b) \/ (exists z, body = JInt z) ->
     env = mkData [] "Error: Unexpected response format.").
Proof.
  intros Hfd Hup.
  assert (Hor : or_empty (filter_domain self) = "")
    by (destruct Hfd as [-> | ->]; reflexivity).
  eexists. split.
  - rewrite run_model_eq, Hor, (try_outcome_success _ _ _ _ _ Hup).
    simpl. reflexivity.
  - repeat split.
    + intros d ->. reflexivity.
    + intros s ->. reflexivity.
    + intros [->|[[b ->]|[z ->]]]; reflexivity.
Qed.

Lemma unfiltered_body_decides_the_envelope_witness :
  exists env,
    run_model (serve 200 "OK" (JStr "API running.")) home_unfiltered [] =
      (Return env,
       [] ++ [states_request (ha_token home_unfiltered) (base_url home_unfiltered)]) /\
    (forall d, JStr "API running." = JDict d ->
               env = mkData d (json_dumps (JStr "API running."))) /\
    (forall s, JStr "API running." = JStr s -> env = mkData [] s) /\
    (JStr "API running." = JNull \/
     (exists b, JStr "API running." = JBool b) \/
     (exists z, JStr "API running." = JInt z) ->
     env = mkData [] "Error: Unexpected response format.").
Proof.
  apply (unfiltered_body_decides_the_envelope
           (serve 200 "OK" (JStr "API running.")) home_unfiltered
           (JStr "API running.") []).
  - left. reflexivity.
  - eexists. repeat split; reflexivity.
Defined.

(** ** The status *)



Example not_found_text :
  fst (_list_states
         (fun _ => Return (mkResponse 404 "Not Found" "http://ha/api/states"
                             (Return (JList []))))
         (Some "token") (Some "http://ha") "light" []) =
  Return (JStr "Error: Failed to fetch states. 404 Client Error: Not Found for url: http://ha/api/states").
Proof. reflexivity. Qed.

(** ** The text of a success *)



(** X8: the text of a structured result is a JSON object: it begins with an
    opening brace, and so never with ["Error:"] nor with
    ["An unexpected error occurred:"], the two beginnings of the texts
    [_list_states] writes for a failure. *)
Theorem structured_text_is_no_error_text p :
  (exists l, p = JList l) \/ (exists d, p = JDict d) ->
  (exists rest, text (_make_data_response p) = String "{" rest) /\
  startswith (text (_make_data_response p)) "Error:" = false /\
  startswith (text (_make_data_response p)) "An unexpected error occurred:" = false.
Proof.
  intros [[l ->]|[d ->]].
  - simpl. repeat split. eexists. reflexivity.
  - destruct d as [|[k v] d]; simpl; repeat split; eexists; reflexivity.
Qed.

Lemma structured_text_is_no_error_text_witness :
  (exists rest, text (_make_data_response (JDict [])) = String "{" rest) /\
  startswith (text (_make_data_response (JDict []))) "Error:" = false /\
  startswith (text (_make_data_response (JDict [])))
    "An unexpected error occurred:" = false.
Proof.
  apply (structured_text_is_no_error_text (JDict [])).
  right. eexists. reflexivity.
Defined.

(** ** The configured filter and the agent *)

(** X9: the filter entered in the UI is no default for the agent: when the
    component is configured with a non-empty filter, [run_model] returns the
    filtered list, but a tool call that gives no [filter_domain] (or an
    empty one) returns the whole upstream list. *)
Theorem agent_call_ignores_the_configured_filter net self d l log :
  filter_domain self = Some d ->
  d <> "" ->
  upstream_succeeds net (states_request (ha_token self) (base_url self)) (JList l) ->
  Forall (fun st => state_like st = true) l ->
  fst (run_model net self log) =
    Return (_make_data_response (JList (List.filter (has_prefix (d +:+ ".")) l))) /\
  fst (_list_states_for_tool net self "" log) = Return (JList l) /\
  fst (tool_call (build_tool net self) [] log) = Return (JList l).
Proof.
  intros Hfd Hd Hup Hwf.
  assert (Hall : try_outcome net (ha_token self) (base_url self) "" =
                 Return (JList l))
    by (rewrite (try_outcome_success _ _ _ _ _ Hup); reflexivity).
  repeat split.
  - rewrite run_model_eq, Hfd. cbn [or_empty fst].
    rewrite (try_outcome_success _ _ _ _ _ Hup), (truthy_nonempty _ Hd).
    cbn [iterate bind]. rewrite (comprehension_total _ _ Hwf). reflexivity.
  - unfold _list_states_for_tool. rewrite list_states_eq, Hall. reflexivity.
  - unfold tool_call, build_tool, _list_states_for_tool. cbn.
    rewrite list_states_eq, Hall. reflexivity.
Qed.

Lemma agent_call_ignores_the_configured_filter_witness :
  fst (run_model (serve 200 "OK" (JList [light_kitchen; sensor_temp])) home []) =
    Return (_make_data_response
              (JList (List.filter (has_prefix ("light" +:+ "."))
                        [light_kitchen; sensor_temp]))) /\
  fst (_list_states_for_tool (serve 200 "OK" (JList [light_kitchen; sensor_temp]))
         home "" []) =
    Return (JList [light_kitchen; sensor_temp]) /\
  fst (tool_call (build_tool (serve 200 "OK" (JList [light_kitchen; sensor_temp]))
                    home) [] []) =
    Return (JList [light_kitchen; sensor_temp]).
Proof.
  apply (agent_call_ignores_the_configured_filter
           (serve 200 "OK" (JList [light_kitchen; sensor_temp])) home "light"
           [light_kitchen; sensor_temp] []).
  - reflexivity.
  - discriminate.
  - eexists. repeat split; reflexivity.
  - repeat constructor.
Defined.

(** ** The exported names *)

Lemma imported_names_are_distinct : NoDup (map snd imports).
Proof. apply (bool_decide_unpack _). vm_compute. exact I. Qed.

Lemma imported_modules_are_distinct : NoDup (map fst imports).
Proof. apply (bool_decide_unpack _). vm_compute. exact I. Qed.

Lemma exports_are_imports_both_ways n :
  In n __all__ <-> In n (map snd imports).
Proof.
  rewrite <- !list_elem_of_In.
  split; intros H.
  - revert n H. apply Forall_forall. apply (bool_decide_unpack _).
    vm_compute. exact I.
  - revert n H. apply Forall_forall. apply (bool_decide_unpack _).
    vm_compute. exact I.
Qed.

(** X10: the package exports what it imports: every name of [__all__] is
    bound by an import of the module and every imported name is listed, no
    name is listed or imported twice, and no module is imported from
    twice. *)
Theorem exports_match_imports :
  (forall n, In n __all__ <-> In n (map snd imports)) /\
  NoDup __all__ /\
  NoDup (map snd imports) /\
  NoDup (map fst imports) /\
  length __all__ = 23.
Proof.
  split; [exact exports_are_imports_both_ways|].
  split; [apply (bool_decide_unpack _); vm_compute; exact I|].
  split; [exact imported_names_are_distinct|].
  split; [exact imported_modules_are_distinct|reflexivity].
Qed.
